(** * AUnit: the test life cycle, the assertion status and the meta-assertions

    A shallow embedding of [src/aunit/Test.h] and [src/aunit/MetaAssertion.h].

    - Part 1 embeds class [Test]: the two enums, the object's fields and the
      inline methods, as functions on a record (the object is passed
      explicitly: a method [void m()] is a function [Test -> Test]).
    - Part 2 embeds what lives outside a single object: the global instances
      [test_<name>_instance], the registry, [static size_t maxLength] and the
      printer, as a state ([World]) threaded by a small state-and-error monad.
    - Part 3 embeds the macros of MetaAssertion.h and the body of a test as a
      list of statements with the early [return] of [assertTestStatus].
    - Part 4 defines the predicates the properties are stated with.
    - Part 5 states and proves the properties.
    - Part 6 proves further properties of the embedded code. *)

From Stdlib Require Import ZArith Bool Lia Permutation.
From stdpp Require Import base gmap strings list.

Local Open Scope Z_scope.

(* ===================================================================== *)
(** * Part 1: class Test                                                  *)
(* ===================================================================== *)

(** [enum class LifeCycle : uint8_t] (Test.h:59-94). *)
Inductive LifeCycle : Type :=
  | New
  | Excluded
  | Setup
  | Asserted
  | Finished.

(** [enum class Status : uint8_t] (Test.h:101-117). *)
Inductive Status : Type :=
  | Unknown
  | Passed
  | Failed
  | Skipped
  | Expired.

#[global] Instance LifeCycle_eq_dec : EqDecision LifeCycle.
Proof. solve_decision. Defined.

#[global] Instance Status_eq_dec : EqDecision Status.
Proof. solve_decision. Defined.

(** The enumerators' values, as the source assigns them. *)
Definition LifeCycle_value (l : LifeCycle) : Z :=
  match l with
  | New => 0 | Excluded => 1 | Setup => 2 | Asserted => 3 | Finished => 4
  end.

Definition Status_value (s : Status) : Z :=
  match s with
  | Unknown => 0 | Passed => 1 | Failed => 2 | Skipped => 3 | Expired => 4
  end.

(** Modelled from the spec: FCString.h is not among the sources.  The spec
    describes the name as "either a normal string or a constant stored in
    program (read-only) memory"; the two constructors are the two kinds. *)
Inductive FCString : Type :=
  | FCString_cstring (s : string)
  | FCString_fstring (s : string).

(** [FCString::getCString()], used by the second overload of [init]. *)
Definition getCString (n : FCString) : string :=
  match n with
  | FCString_cstring s => s
  | FCString_fstring s => s
  end.

(** Modelled from the spec: Verbosity.h is not among the sources.  The spec
    describes the verbosity as a bitset changed by bitwise OR and AND-NOT;
    it is taken as a mask of [verbosity_bits] bits, the width of the two
    [uint8_t] enums of Test.h, held in a [Z]. *)
Definition Verbosity : Type := Z.

Definition verbosity_bits : Z := 8.

(** [Verbosity::kNone]. *)
Definition kNone : Verbosity := 0.

(** A value of the type: all bits beyond the width are clear. *)
Definition is_verbosity (v : Verbosity) : Prop :=
  0 <= v < 2 ^ verbosity_bits.

(** [~verbosity], wrapped to the width of the type. *)
Definition verbosity_not (v : Verbosity) : Verbosity :=
  Z.land (Z.lnot v) (Z.ones verbosity_bits).

(** The data members of [Test] (Test.h:297-300).  The link [mNext] of the
    intrusive list is kept in the registry of Part 2. *)
Record Test : Type := mkTest {
  mName : FCString;
  mLifeCycle : LifeCycle;
  mStatus : Status;
  mVerbosity : Verbosity;
}.

(** ** Getters and setters (Test.h:167-187) *)

Definition getName (t : Test) : FCString := mName t.

Definition getLifeCycle (t : Test) : LifeCycle := mLifeCycle t.

(** [void setLifeCycle(LifeCycle state) { mLifeCycle = state; }] *)
Definition setLifeCycle (state : LifeCycle) (t : Test) : Test :=
  {| mName := mName t;
     mLifeCycle := state;
     mStatus := mStatus t;
     mVerbosity := mVerbosity t |}.

Definition getStatus (t : Test) : Status := mStatus t.

(** The assignment [mStatus = status]. *)
Definition assign_mStatus (status : Status) (t : Test) : Test :=
  {| mName := mName t;
     mLifeCycle := mLifeCycle t;
     mStatus := status;
     mVerbosity := mVerbosity t |}.

(** [[
    void setStatus(Status status) {
      if (status != Status::Unknown) {
        setLifeCycle(LifeCycle::Asserted);
      }
      mStatus = status;
    }
    ]] *)
Definition setStatus (status : Status) (t : Test) : Test :=
  let t1 := if negb (bool_decide (status = Unknown))
            then setLifeCycle Asserted t
            else t in
  assign_mStatus status t1.

(** Modelled from the spec: [Test::setPassOrFail] is only declared in Test.h
    ("Set the status to Passed or Failed depending on ok"); its body is in
    Test.cpp, which is not among the sources.  The spec: "convenience that
    maps ok to Passed/Failed through setStatus". *)
Definition setPassOrFail (ok : bool) (t : Test) : Test :=
  setStatus (if ok then Passed else Failed) t.

(** ** The status predicates (Test.h:205-232) *)

Definition isDone (t : Test) : bool := negb (bool_decide (mStatus t = Unknown)).
Definition isNotDone (t : Test) : bool := negb (isDone t).
Definition isPassed (t : Test) : bool := bool_decide (mStatus t = Passed).
Definition isNotPassed (t : Test) : bool := negb (isPassed t).
Definition isFailed (t : Test) : bool := bool_decide (mStatus t = Failed).
Definition isNotFailed (t : Test) : bool := negb (isFailed t).
Definition isSkipped (t : Test) : bool := bool_decide (mStatus t = Skipped).
Definition isNotSkipped (t : Test) : bool := negb (isSkipped t).
Definition isExpired (t : Test) : bool := bool_decide (mStatus t = Expired).
Definition isNotExpired (t : Test) : bool := negb (isExpired t).

(** ** Self-reports (Test.h:238-244 and 259-267) *)

Definition skip (t : Test) : Test := setStatus Skipped t.
Definition expire (t : Test) : Test := setStatus Expired t.
Definition fail (t : Test) : Test := setStatus Failed t.
Definition pass (t : Test) : Test := setStatus Passed t.

(** ** Verbosity (Test.h:247-250 and 284-287) *)

Definition assign_mVerbosity (v : Verbosity) (t : Test) : Test :=
  {| mName := mName t;
     mLifeCycle := mLifeCycle t;
     mStatus := mStatus t;
     mVerbosity := v |}.

(** [mVerbosity |= verbosity] *)
Definition enableVerbosity (verbosity : Verbosity) (t : Test) : Test :=
  assign_mVerbosity (Z.lor (mVerbosity t) verbosity) t.

(** [mVerbosity &= ~verbosity] *)
Definition disableVerbosity (verbosity : Verbosity) (t : Test) : Test :=
  assign_mVerbosity (Z.land (mVerbosity t) (verbosity_not verbosity)) t.

(** [(mVerbosity & verbosity) != Verbosity::kNone] *)
Definition isVerbosity (verbosity : Verbosity) (t : Test) : bool :=
  negb (Z.land (mVerbosity t) verbosity =? kNone).

Definition getVerbosity (t : Test) : Verbosity := mVerbosity t.

(** ** Exclusion *)

(** Modelled from the spec: the "exclude" and "include" operations belong to
    the runner, which is not among the sources.  The spec: "New -> Excluded:
    triggered by an explicit exclude operation; reversible via include
    (Excluded -> New)"; Test.h:65-68: "Test is Excluded by an exclude()
    method ... The include() method puts the test back into the New state".
    Both write the life cycle through [setLifeCycle]. *)
Definition exclude (t : Test) : Test := setLifeCycle Excluded t.
Definition include (t : Test) : Test := setLifeCycle New t.

(** ** What [init] leaves in the object (Test.h:271-274)

    [[
      mName = internal::FCString(name);
      mLifeCycle = LifeCycle::New;
      mStatus = Status::Unknown;
      mVerbosity = Verbosity::kNone;
    ]]
    All four members are assigned, so the result does not depend on what the
    object held before. *)
Definition init_object (name : string) : Test :=
  {| mName := FCString_cstring name;
     mLifeCycle := New;
     mStatus := Unknown;
     mVerbosity := kNone |}.

(** ** Sequences of operations on one test *)

(** The operations a test offers to its body, to the runner and to other
    code. *)
Inductive Op : Type :=
  | OpSetStatus (s : Status)
  | OpSetLifeCycle (l : LifeCycle)
  | OpSetPassOrFail (ok : bool)
  | OpPass
  | OpFail
  | OpSkip
  | OpExpire
  | OpExclude
  | OpInclude
  | OpEnableVerbosity (v : Verbosity)
  | OpDisableVerbosity (v : Verbosity).

Definition apply_op (o : Op) (t : Test) : Test :=
  match o with
  | OpSetStatus s => setStatus s t
  | OpSetLifeCycle l => setLifeCycle l t
  | OpSetPassOrFail ok => setPassOrFail ok t
  | OpPass => pass t
  | OpFail => fail t
  | OpSkip => skip t
  | OpExpire => expire t
  | OpExclude => exclude t
  | OpInclude => include t
  | OpEnableVerbosity v => enableVerbosity v t
  | OpDisableVerbosity v => disableVerbosity v t
  end.

(** The operations are applied from the head of the list on. *)
Fixpoint apply_ops (os : list Op) (t : Test) : Test :=
  match os with
  | [] => t
  | o :: os' => apply_ops os' (apply_op o t)
  end.

(* ===================================================================== *)
(** * Part 2: the global state                                            *)
(* ===================================================================== *)

(** The ten message constants declared in MetaAssertion.h:131-140.  Their
    text is defined outside the sources; the model keeps them symbolic. *)
Inductive Message : Type :=
  | kMessageIsDone
  | kMessageIsNotDone
  | kMessageIsPassed
  | kMessageIsNotPassed
  | kMessageIsFailed
  | kMessageIsNotFailed
  | kMessageIsSkipped
  | kMessageIsNotSkipped
  | kMessageIsExpired
  | kMessageIsNotExpired.

(** The value an integer has once converted to [uint16_t], the type of the
    [line] parameters of MetaAssertion.h:152 and 158: reduced modulo 2^16. *)
Definition to_uint16_t (z : Z) : Z := z mod 2 ^ 16.

(** One call of [printAssertionTestStatusMessage(ok, file, line, testName,
    statusMessage)] (MetaAssertion.h:157-159): the printer's layout is not
    among the sources, so the model records the arguments.  [diag_line] is
    the [uint16_t line] argument. *)
Record Diagnostic : Type := mkDiagnostic {
  diag_ok : bool;
  diag_file : string;
  diag_line : Z;
  diag_testName : string;
  diag_statusMessage : Message;
}.

(** The state outside a single method call.
    - [instances]: the global objects; the key [name] stands for the
      variable [test_<name>_instance] the macros of MetaAssertion.h refer to.
    - [registry]: the intrusive list rooted at [*Test::getRoot()] and linked
      by [mNext], as the list of its instances in iteration order.
    - [maxLength]: [static size_t Test::maxLength].
    - [printed]: what has been sent to the printer, oldest first. *)
Record World : Type := mkWorld {
  instances : gmap string Test;
  registry : list string;
  maxLength : nat;
  printed : list Diagnostic;
}.

(** Modelled from the spec: the definition of [Test::maxLength] (and so its
    initial value) is in Test.cpp, not among the sources.  The spec: "tracks
    the longest test name seen": before any registration no name has been
    seen, and a static without initializer starts at zero. *)
Definition maxLength_initial : nat := 0%nat.

(** The state before any test is constructed. *)
Definition initial_world : World :=
  {| instances := ∅;
     registry := [];
     maxLength := maxLength_initial;
     printed := [] |}.

(** ** A state-and-error monad over [World]

    [None] stands for a reference to an instance that does not exist, which
    a C++ compiler rejects. *)
Definition M (A : Type) : Type := World -> option (A * World).

Definition ret {A : Type} (a : A) : M A := fun w => Some (a, w).

Definition bind {A B : Type} (m : M A) (k : A -> M B) : M B :=
  fun w =>
    match m w with
    | Some (a, w') => k a w'
    | None => None
    end.

Notation "x <- m ;; k" := (bind m (fun x => k))
  (at level 100, m at next level, right associativity).
Notation "m ;;; k" := (bind m (fun _ => k))
  (at level 100, right associativity).

(** The object [test_<name>_instance]. *)
Definition instance (name : string) : M Test :=
  fun w =>
    match instances w !! name with
    | Some t => Some (t, w)
    | None => None
    end.

Definition with_instances (f : gmap string Test -> gmap string Test)
    (w : World) : World :=
  {| instances := f (instances w);
     registry := registry w;
     maxLength := maxLength w;
     printed := printed w |}.

(** A call [test_<name>_instance.m()] of a non-const method [m]. *)
Definition call (name : string) (m : Test -> Test) : M unit :=
  t <- instance name ;;
  fun w => Some (tt, with_instances (insert name (m t)) w).

Definition get_maxLength : M nat := fun w => Some (maxLength w, w).

Definition set_maxLength (n : nat) : M unit :=
  fun w =>
    Some (tt, {| instances := instances w;
                 registry := registry w;
                 maxLength := n;
                 printed := printed w |}).

Definition print (d : Diagnostic) : M unit :=
  fun w =>
    Some (tt, {| instances := instances w;
                 registry := registry w;
                 maxLength := maxLength w;
                 printed := printed w ++ [d] |}).

(** [static void displayMinPosition(size_t pos) { maxLength = pos; }] *)
Definition displayMinPosition (pos : nat) : M unit := set_maxLength pos.

(** Modelled from the spec: [Test::insert] is only declared in Test.h
    ("Insert into the linked list"); its body is in Test.cpp, not among the
    sources.  The spec: every constructed test "is inserted into the
    registry exactly once, at construction time, in construction order". *)
Definition insert_registry (this : string) : M unit :=
  fun w =>
    Some (tt, {| instances := instances w;
                 registry := registry w ++ [this];
                 maxLength := maxLength w;
                 printed := printed w |}).

(** [[
    void init(const char* name) {
      maxLength = std::max(maxLength, strlen(name));
      mName = internal::FCString(name);
      mLifeCycle = LifeCycle::New;
      mStatus = Status::Unknown;
      mVerbosity = Verbosity::kNone;
      insert();
    }
    ]]
    [this] names the object under construction. *)
Definition init (this : string) (name : string) : M unit :=
  m <- get_maxLength ;;
  set_maxLength (Nat.max m (String.length name)) ;;;
  (fun w => Some (tt, with_instances (insert this (init_object name)) w)) ;;;
  insert_registry this.

(** [[
    void init(const __FlashStringHelper* name) {
      mName = internal::FCString(name);
      init(mName.getCString());
    }
    ]] *)
Definition init_flash (this : string) (name : string) : M unit :=
  let mName' := FCString_fstring name in
  init this (getCString mName').

(** Registration of several tests, in the order of the list; each entry is
    the object and the name it is given. *)
Fixpoint register_all (tests : list (string * string)) : M unit :=
  match tests with
  | [] => ret tt
  | (this, name) :: rest => init this name ;;; register_all rest
  end.

(* ===================================================================== *)
(** * Part 3: MetaAssertion.h                                             *)
(* ===================================================================== *)

(** ** The checking forms (MetaAssertion.h:47-74)

    [#define checkTestDone(name) (test_##name##_instance.isDone())], and so
    on: an expression that calls a const method of the named instance. *)
Definition checkTestDone (name : string) : M bool :=
  t <- instance name ;; ret (isDone t).
Definition checkTestNotDone (name : string) : M bool :=
  t <- instance name ;; ret (isNotDone t).
Definition checkTestPass (name : string) : M bool :=
  t <- instance name ;; ret (isPassed t).
Definition checkTestNotPass (name : string) : M bool :=
  t <- instance name ;; ret (isNotPassed t).
Definition checkTestFail (name : string) : M bool :=
  t <- instance name ;; ret (isFailed t).
Definition checkTestNotFail (name : string) : M bool :=
  t <- instance name ;; ret (isNotFailed t).
Definition checkTestSkip (name : string) : M bool :=
  t <- instance name ;; ret (isSkipped t).
Definition checkTestNotSkip (name : string) : M bool :=
  t <- instance name ;; ret (isNotSkipped t).
Definition checkTestExpire (name : string) : M bool :=
  t <- instance name ;; ret (isExpired t).
Definition checkTestNotExpire (name : string) : M bool :=
  t <- instance name ;; ret (isNotExpired t).

(** The ten checking forms, by name. *)
Inductive CheckForm : Type :=
  | CheckTestDone
  | CheckTestNotDone
  | CheckTestPass
  | CheckTestNotPass
  | CheckTestFail
  | CheckTestNotFail
  | CheckTestSkip
  | CheckTestNotSkip
  | CheckTestExpire
  | CheckTestNotExpire.

Definition checkTest (c : CheckForm) : string -> M bool :=
  match c with
  | CheckTestDone => checkTestDone
  | CheckTestNotDone => checkTestNotDone
  | CheckTestPass => checkTestPass
  | CheckTestNotPass => checkTestNotPass
  | CheckTestFail => checkTestFail
  | CheckTestNotFail => checkTestNotFail
  | CheckTestSkip => checkTestSkip
  | CheckTestNotSkip => checkTestNotSkip
  | CheckTestExpire => checkTestExpire
  | CheckTestNotExpire => checkTestNotExpire
  end.

(** ** The asserting forms (MetaAssertion.h:80-124) *)

(** The [method] argument of [assertTestStatus]: one of the ten const
    predicates of [Test]. *)
Inductive Method : Type :=
  | M_isDone
  | M_isNotDone
  | M_isPassed
  | M_isNotPassed
  | M_isFailed
  | M_isNotFailed
  | M_isSkipped
  | M_isNotSkipped
  | M_isExpired
  | M_isNotExpired.

Definition call_method (m : Method) : Test -> bool :=
  match m with
  | M_isDone => isDone
  | M_isNotDone => isNotDone
  | M_isPassed => isPassed
  | M_isNotPassed => isNotPassed
  | M_isFailed => isFailed
  | M_isNotFailed => isNotFailed
  | M_isSkipped => isSkipped
  | M_isNotSkipped => isNotSkipped
  | M_isExpired => isExpired
  | M_isNotExpired => isNotExpired
  end.

(** Modelled from the spec: [MetaAssertion::assertionTestStatus] is only
    declared in MetaAssertion.h:152-154; its body is not among the sources.
    The spec: "If true, no output occurs ... and execution of the caller
    continues normally.  If false, emit a diagnostic identifying the
    caller's location, the target test's name, and the expected-condition
    message, mark the calling test's own status as Failed via setStatus".
    [this] is the calling test; the result is what the macro tests.  The
    parameter is declared [uint16_t line]: whatever integer is passed, the
    function has its value as a [uint16_t]. *)
Definition assertionTestStatus (this : string) (file : string) (line : Z)
    (testName : string) (statusMessage : Message) (ok : bool) : M bool :=
  let line16 := to_uint16_t line in
  if ok then ret true
  else
    print (mkDiagnostic ok file line16 testName statusMessage) ;;;
    call this (setStatus Failed) ;;;
    ret false.

(** How a statement of a test body ends: control goes on to the next
    statement, or the body has executed [return]. *)
Inductive Flow : Type :=
  | Continue
  | Returned.

(** [[
    #define assertTestStatus(name,method,message) do {\
      if (!assertionTestStatus(\
          __FILE__,__LINE__,#name,FPSTR(message),test_##name##_instance.method()))\
        return;\
    } while (false)
    ]]
    [file] and [line] are the place of the macro call ([__FILE__] and
    [__LINE__]); [name] gives both the string [#name] and the instance
    [test_<name>_instance].  The argument [__LINE__] is converted to the
    type [uint16_t] of the parameter it is passed to. *)
Definition assertTestStatus (this : string) (file : string) (line : Z)
    (name : string) (method : Method) (message : Message) : M Flow :=
  t <- instance name ;;
  ok <- assertionTestStatus this file (to_uint16_t line) name message
          (call_method method t) ;;
  if negb ok then ret Returned else ret Continue.

(** A statement of a test body: a call of one of the test's own methods, a
    meta-assertion, or a plain [return]. *)
Inductive Stmt : Type :=
  | SCall (o : Op)
  | SAssertTestStatus (file : string) (line : Z) (name : string)
      (method : Method) (message : Message)
  | SReturn.

Definition assertTestPass file line name : Stmt :=
  SAssertTestStatus file line name M_isPassed kMessageIsPassed.

Definition exec_stmt (this : string) (s : Stmt) : M Flow :=
  match s with
  | SCall o => call this (apply_op o) ;;; ret Continue
  | SAssertTestStatus file line name method message =>
      assertTestStatus this file line name method message
  | SReturn => ret Returned
  end.

(** One invocation of the body of test [this] (its [loop()]): the
    statements run in order until one of them returns. *)
Fixpoint exec_body (this : string) (body : list Stmt) : M Flow :=
  match body with
  | [] => ret Continue
  | s :: rest =>
      f <- exec_stmt this s ;;
      match f with
      | Continue => exec_body this rest
      | Returned => ret Returned
      end
  end.

(* ===================================================================== *)
(** * Part 4: the vocabulary of the properties                            *)
(* ===================================================================== *)

(** The status has been decided exactly when the life cycle is [Asserted]. *)
Definition status_lifeCycle_coupled (t : Test) : Prop :=
  mStatus t <> Unknown <-> mLifeCycle t = Asserted.

(** The operations that keep the coupling whatever the state: the ones that
    decide the status, and the ones that touch neither field. *)
Definition keeps_coupling (o : Op) : bool :=
  match o with
  | OpSetStatus s => negb (bool_decide (s = Unknown))
  | OpSetPassOrFail _ | OpPass | OpFail | OpSkip | OpExpire => true
  | OpEnableVerbosity _ | OpDisableVerbosity _ => true
  | OpSetLifeCycle _ | OpExclude | OpInclude => false
  end.

(** How many of the given answers are [true]. *)
Fixpoint count_true (bs : list bool) : nat :=
  match bs with
  | [] => 0%nat
  | b :: bs' => ((if b then 1 else 0) + count_true bs')%nat
  end.

(** The answers of the four outcome predicates of a test. *)
Definition outcomes (t : Test) : list bool :=
  [isPassed t; isFailed t; isSkipped t; isExpired t].

(** What each checking form answers, as a function of a status alone. *)
Definition status_predicate (c : CheckForm) (s : Status) : bool :=
  match c with
  | CheckTestDone => negb (bool_decide (s = Unknown))
  | CheckTestNotDone => bool_decide (s = Unknown)
  | CheckTestPass => bool_decide (s = Passed)
  | CheckTestNotPass => negb (bool_decide (s = Passed))
  | CheckTestFail => bool_decide (s = Failed)
  | CheckTestNotFail => negb (bool_decide (s = Failed))
  | CheckTestSkip => bool_decide (s = Skipped)
  | CheckTestNotSkip => negb (bool_decide (s = Skipped))
  | CheckTestExpire => bool_decide (s = Expired)
  | CheckTestNotExpire => negb (bool_decide (s = Expired))
  end.

(** The length of the longest of the given names, 0 when there is none. *)
Fixpoint longest (names : list string) : nat :=
  match names with
  | [] => 0%nat
  | n :: names' => Nat.max (String.length n) (longest names')
  end.

(** The state right after a failed meta-assertion of test [this], whose
    object was [caller], in state [w]: the diagnostic [d] is printed and the
    caller is marked Failed; nothing else differs from [w]. *)
Definition after_failed_assertion (this : string) (caller : Test)
    (d : Diagnostic) (w : World) : World :=
  {| instances := <[this := setStatus Failed caller]> (instances w);
     registry := registry w;
     maxLength := maxLength w;
     printed := printed w ++ [d] |}.

(** ** Vocabulary of Part 6 *)

(** The two operations on the verbosity mask. *)
Definition verbosity_op (o : Op) : bool :=
  match o with
  | OpEnableVerbosity _ | OpDisableVerbosity _ => true
  | _ => false
  end.

(** The operations that write the life cycle directly. *)
Definition writes_lifeCycle (o : Op) : bool :=
  match o with
  | OpSetLifeCycle _ | OpExclude | OpInclude => true
  | _ => false
  end.

(** The call [setStatus(Status::Unknown)]. *)
Definition undecides (o : Op) : bool :=
  match o with
  | OpSetStatus Unknown => true
  | _ => false
  end.

(** A decided status goes with the life cycle [Asserted], and the life cycle
    is one of the two a test reaches without the runner. *)
Definition decided_means_Asserted (t : Test) : Prop :=
  (mStatus t <> Unknown -> mLifeCycle t = Asserted)
  /\ (mLifeCycle t = New \/ mLifeCycle t = Asserted).

(** The answer of a checking form with the boolean negated, the state and a
    failure as they are. *)
Definition negated (r : option (bool * World)) : option (bool * World) :=
  match r with
  | Some (b, w) => Some (negb b, w)
  | None => None
  end.



(* ===================================================================== *)
(** * Part 5: the properties                                              *)
(* ===================================================================== *)

(** ** The coupling of status and life cycle *)

Section SetStatus.

Variable t : Test.

Lemma setStatus_mStatus (s : Status) : mStatus (setStatus s t) = s.
Proof. unfold setStatus. destruct (negb _); reflexivity. Qed.

Lemma setStatus_decided_mLifeCycle (s : Status) :
  s <> Unknown -> mLifeCycle (setStatus s t) = Asserted.
Proof.
  intros Hs. unfold setStatus.
  rewrite bool_decide_eq_false_2 by exact Hs. reflexivity.
Qed.

Lemma setStatus_Unknown_mLifeCycle :
  mLifeCycle (setStatus Unknown t) = mLifeCycle t.
Proof. reflexivity. Qed.

Lemma setStatus_mName (s : Status) : mName (setStatus s t) = mName t.
Proof. unfold setStatus. destruct (negb _); reflexivity. Qed.

Lemma setStatus_mVerbosity (s : Status) :
  mVerbosity (setStatus s t) = mVerbosity t.
Proof. unfold setStatus. destruct (negb _); reflexivity. Qed.

Lemma setStatus_decided_coupled (s : Status) :
  s <> Unknown -> status_lifeCycle_coupled (setStatus s t).
Proof.
  intros Hs. unfold status_lifeCycle_coupled.
  rewrite setStatus_mStatus, setStatus_decided_mLifeCycle by exact Hs.
  tauto.
Qed.

End SetStatus.

Lemma init_object_coupled (name : string) :
  status_lifeCycle_coupled (init_object name).
Proof. unfold status_lifeCycle_coupled; simpl. split; [tauto | discriminate]. Qed.

Lemma keeps_coupling_step (o : Op) (t : Test) :
  keeps_coupling o = true ->
  status_lifeCycle_coupled t ->
  status_lifeCycle_coupled (apply_op o t).
Proof.
  intros Ho Ht.
  destruct o as [s| |ok| | | | | | | |]; simpl in Ho; try discriminate; simpl.
  - apply setStatus_decided_coupled.
    intros ->. discriminate Ho.
  - apply setStatus_decided_coupled. destruct ok; discriminate.
  - apply setStatus_decided_coupled. discriminate.
  - apply setStatus_decided_coupled. discriminate.
  - apply setStatus_decided_coupled. discriminate.
  - apply setStatus_decided_coupled. discriminate.
  - exact Ht.
  - exact Ht.
Qed.

Lemma keeps_coupling_run (os : list Op) :
  forall t : Test,
    forallb keeps_coupling os = true ->
    status_lifeCycle_coupled t ->
    status_lifeCycle_coupled (apply_ops os t).
Proof.
  induction os as [|o os IH]; intros t Hos Ht; simpl in *.
  - exact Ht.
  - apply andb_prop in Hos as [Ho Hos].
    apply IH; [exact Hos |].
    apply keeps_coupling_step; assumption.
Qed.

(** C1, as stated, fails: the biconditional "status != Unknown iff
    lifeCycle == Asserted" does not hold after every sequence of public
    operations on a constructed test.  [setLifeCycle(Asserted)] on a fresh
    test gives Asserted with status Unknown; [pass()] followed by the
    runner's [setLifeCycle(Finished)], by exclude, or by
    [setStatus(Unknown)] breaks one of the two directions. *)
Lemma coupling_broken_by_setLifeCycle :
  ~ status_lifeCycle_coupled
      (apply_ops [OpSetLifeCycle Asserted] (init_object "t"))
  /\ ~ status_lifeCycle_coupled
         (apply_ops [OpPass; OpSetLifeCycle Finished] (init_object "t"))
  /\ ~ status_lifeCycle_coupled
         (apply_ops [OpPass; OpExclude] (init_object "t"))
  /\ ~ status_lifeCycle_coupled
         (apply_ops [OpPass; OpSetStatus Unknown] (init_object "t")).
Proof.
  unfold status_lifeCycle_coupled; simpl.
  repeat split; intros [H1 H2].
  - apply H2; reflexivity.
  - discriminate H1. discriminate.
  - discriminate H1. discriminate.
  - apply H2; reflexivity.
Qed.

(** C1 (amended): for every constructed test and after every sequence of
    operations that decide the status (setStatus with a status other than
    Unknown, setPassOrFail, pass, fail, skip, expire) or change the
    verbosity, status != Unknown holds if and only if lifeCycle ==
    Asserted. *)
Theorem coupling_after_status_operations (name : string) (os : list Op) :
  forallb keeps_coupling os = true ->
  status_lifeCycle_coupled (apply_ops os (init_object name)).
Proof.
  intros Hos. apply keeps_coupling_run; [exact Hos |].
  apply init_object_coupled.
Qed.

Lemma coupling_after_status_operations_witness :
  status_lifeCycle_coupled
    (apply_ops [OpEnableVerbosity 1; OpSetPassOrFail true; OpSetStatus Failed]
       (init_object "blink")).
Proof.
  apply (coupling_after_status_operations "blink"
           [OpEnableVerbosity 1; OpSetPassOrFail true; OpSetStatus Failed]).
  reflexivity.
Defined.

(** ** setStatus *)

(** C2: after [t.setStatus(s)] with [s != Unknown] the life cycle is
    Asserted and the status is [s]; and an operation changes the status of
    a test only by being a call of setStatus: pass, fail, skip, expire and
    setPassOrFail are such calls, every other operation leaves the status
    as it was, and construction leaves it Unknown. *)
Theorem setStatus_only_way_out_of_Unknown (t : Test) (s : Status) (o : Op) :
  (s <> Unknown ->
     mLifeCycle (setStatus s t) = Asserted /\ mStatus (setStatus s t) = s)
  /\ (mStatus (apply_op o t) <> mStatus t ->
        exists s' : Status, apply_op o t = setStatus s' t)
  /\ pass t = setStatus Passed t
  /\ fail t = setStatus Failed t
  /\ skip t = setStatus Skipped t
  /\ expire t = setStatus Expired t
  /\ (forall ok : bool,
        setPassOrFail ok t = setStatus (if ok then Passed else Failed) t)
  /\ (forall name : string, mStatus (init_object name) = Unknown).
Proof.
  split; [| split].
  - intros Hs. split.
    + apply setStatus_decided_mLifeCycle; exact Hs.
    + apply setStatus_mStatus.
  - intros Hch.
    destruct o as [s'| |ok| | | | | | | |]; simpl in *;
      try (exfalso; apply Hch; reflexivity).
    + exists s'; reflexivity.
    + exists (if ok then Passed else Failed); reflexivity.
    + exists Passed; reflexivity.
    + exists Failed; reflexivity.
    + exists Skipped; reflexivity.
    + exists Expired; reflexivity.
  - repeat split.
Qed.

Lemma setStatus_only_way_out_of_Unknown_witness :
  (mLifeCycle (setStatus Skipped (init_object "t")) = Asserted
   /\ mStatus (setStatus Skipped (init_object "t")) = Skipped)
  /\ exists s' : Status,
       apply_op OpExpire (init_object "t") = setStatus s' (init_object "t").
Proof.
  destruct (setStatus_only_way_out_of_Unknown (init_object "t") Skipped OpExpire)
    as (H1 & H2 & _).
  split.
  - apply H1. discriminate.
  - apply H2. simpl. discriminate.
Defined.

(** C9: [t.setStatus(Unknown)] sets the status to Unknown and leaves the
    life cycle as it was; so after [pass()] followed by
    [setStatus(Unknown)] the status is Unknown and the life cycle is still
    Asserted. *)
Theorem setStatus_Unknown_keeps_lifeCycle (t : Test) :
  mStatus (setStatus Unknown t) = Unknown
  /\ mLifeCycle (setStatus Unknown t) = mLifeCycle t
  /\ mStatus (setStatus Unknown (pass t)) = Unknown
  /\ mLifeCycle (setStatus Unknown (pass t)) = Asserted.
Proof. repeat split. Qed.

(** C6 (setPassOrFail modelled from the spec): [setPassOrFail(true)] gives
    status Passed, [setPassOrFail(false)] gives status Failed, and in both
    cases the life cycle becomes Asserted. *)
Theorem setPassOrFail_status_and_lifeCycle (t : Test) :
  mStatus (setPassOrFail true t) = Passed
  /\ mStatus (setPassOrFail false t) = Failed
  /\ mLifeCycle (setPassOrFail true t) = Asserted
  /\ mLifeCycle (setPassOrFail false t) = Asserted.
Proof. repeat split. Qed.

(** ** Exclusion *)

(** C5 (exclude and include modelled from the spec): on a fresh test (life
    cycle New, status Unknown) exclude followed by include gives back life
    cycle New and status Unknown; the excluded state in between has life
    cycle Excluded, and the whole object is as it was. *)
Theorem exclude_include_round_trip (t : Test) :
  mLifeCycle t = New ->
  mStatus t = Unknown ->
  mLifeCycle (exclude t) = Excluded
  /\ mLifeCycle (include (exclude t)) = New
  /\ mStatus (include (exclude t)) = Unknown
  /\ include (exclude t) = t.
Proof.
  intros Hl Hs. destruct t as [n l s v]; simpl in *. subst.
  repeat split.
Qed.

Lemma exclude_include_round_trip_witness :
  mLifeCycle (exclude (init_object "t")) = Excluded
  /\ mLifeCycle (include (exclude (init_object "t"))) = New
  /\ mStatus (include (exclude (init_object "t"))) = Unknown
  /\ include (exclude (init_object "t")) = init_object "t".
Proof.
  apply (exclude_include_round_trip (init_object "t")); reflexivity.
Defined.

(** ** The status predicates *)

(** C10: in every state of a test at most one of isPassed, isFailed,
    isSkipped and isExpired answers true; isDone answers true if and only
    if exactly one of the four does; and each isNot... predicate answers
    the negation of its positive counterpart. *)
Theorem outcome_predicates_exclusive (t : Test) :
  (count_true (outcomes t) <= 1)%nat
  /\ (isDone t = true <-> count_true (outcomes t) = 1%nat)
  /\ isNotDone t = negb (isDone t)
  /\ isNotPassed t = negb (isPassed t)
  /\ isNotFailed t = negb (isFailed t)
  /\ isNotSkipped t = negb (isSkipped t)
  /\ isNotExpired t = negb (isExpired t).
Proof.
  destruct t as [n l s v].
  unfold outcomes, isDone, isPassed, isFailed, isSkipped, isExpired; simpl.
  destruct s; simpl; repeat split; intros; try lia; try discriminate.
Qed.

(** ** Verbosity *)

Lemma is_verbosity_bits (m : Verbosity) (i : Z) :
  is_verbosity m -> 0 <= i ->
  Z.testbit m i = Z.testbit m i && (i <? verbosity_bits).
Proof.
  intros Hm Hi.
  assert (Hland : Z.land m (Z.ones verbosity_bits) = m).
  { rewrite Z.land_ones by (unfold verbosity_bits; lia).
    apply Z.mod_small. exact Hm. }
  rewrite <- Hland at 1.
  rewrite Z.land_spec, Z.testbit_ones_nonneg
    by (unfold verbosity_bits; lia).
  reflexivity.
Qed.

Lemma verbosity_not_bits (v : Verbosity) (i : Z) :
  0 <= i ->
  Z.testbit (verbosity_not v) i = negb (Z.testbit v i) && (i <? verbosity_bits).
Proof.
  intros Hi. unfold verbosity_not.
  rewrite Z.land_spec, Z.lnot_spec, Z.testbit_ones_nonneg
    by (unfold verbosity_bits; lia).
  reflexivity.
Qed.

Lemma enable_then_disable_mask (m v : Verbosity) :
  Z.land (Z.lor m v) (verbosity_not v) = Z.land m (verbosity_not v).
Proof.
  apply Z.bits_inj'; intros i Hi.
  rewrite !Z.land_spec, Z.lor_spec, verbosity_not_bits by exact Hi.
  destruct (Z.testbit m i), (Z.testbit v i), (i <? verbosity_bits);
    reflexivity.
Qed.

Lemma disable_restores_iff (m v : Verbosity) :
  is_verbosity m ->
  Z.land m (verbosity_not v) = m <-> Z.land m v = 0.
Proof.
  intros Hm. split; intros H.
  - rewrite <- H.
    apply Z.bits_inj'; intros i Hi.
    rewrite !Z.land_spec, verbosity_not_bits, Z.bits_0 by exact Hi.
    destruct (Z.testbit m i), (Z.testbit v i), (i <? verbosity_bits);
      reflexivity.
  - apply Z.bits_inj'; intros i Hi.
    assert (Hmv : Z.testbit (Z.land m v) i = false)
      by (rewrite H; apply Z.bits_0).
    rewrite Z.land_spec in Hmv.
    rewrite Z.land_spec, verbosity_not_bits by exact Hi.
    rewrite (is_verbosity_bits m i Hm Hi).
    destruct (Z.testbit m i), (Z.testbit v i), (i <? verbosity_bits);
      simpl in *; congruence.
Qed.

(** C3, as stated, fails: "enable(v); disable(v) is the identity on the
    mask for any v and any initial mask".  A test whose mask already has the
    flag 1 set (after enableVerbosity(1) on a constructed test) has mask 1;
    enableVerbosity(1) then disableVerbosity(1) leaves mask 0. *)
Lemma enable_disable_clears_a_set_flag :
  mVerbosity (enableVerbosity 1 (init_object "t")) = 1
  /\ mVerbosity (disableVerbosity 1 (enableVerbosity 1
                   (enableVerbosity 1 (init_object "t")))) = 0
  /\ mVerbosity (disableVerbosity 1 (enableVerbosity 1
                   (enableVerbosity 1 (init_object "t"))))
       <> mVerbosity (enableVerbosity 1 (init_object "t")).
Proof. simpl. repeat split. discriminate. Qed.

(** C3 (amended): enableVerbosity(v) followed by disableVerbosity(v) leaves
    the mask equal to the original mask with the bits of v cleared; for an
    original mask m of the type this is m itself if and only if no bit of v
    was set in m, and then the whole object is as it was. *)
Theorem enable_disable_restores_unset_flags (t : Test) (v : Verbosity) :
  mVerbosity (disableVerbosity v (enableVerbosity v t))
    = Z.land (mVerbosity t) (verbosity_not v)
  /\ (is_verbosity (mVerbosity t) ->
        (mVerbosity (disableVerbosity v (enableVerbosity v t)) = mVerbosity t
           <-> Z.land (mVerbosity t) v = 0)
        /\ (Z.land (mVerbosity t) v = 0 ->
              disableVerbosity v (enableVerbosity v t) = t)).
Proof.
  assert (Hmask : mVerbosity (disableVerbosity v (enableVerbosity v t))
                    = Z.land (mVerbosity t) (verbosity_not v)).
  { unfold disableVerbosity, enableVerbosity; simpl.
    apply enable_then_disable_mask. }
  split; [exact Hmask |].
  intros Hm. split.
  - rewrite Hmask. apply disable_restores_iff; exact Hm.
  - intros Hv.
    apply (disable_restores_iff _ _ Hm) in Hv.
    rewrite <- Hmask in Hv.
    destruct t as [n l s m]; simpl in *.
    unfold disableVerbosity, enableVerbosity, assign_mVerbosity in *;
      simpl in *.
    rewrite Hv. reflexivity.
Qed.

Lemma enable_disable_restores_unset_flags_witness :
  mVerbosity (disableVerbosity 2 (enableVerbosity 2
                (enableVerbosity 4 (init_object "t"))))
    = mVerbosity (enableVerbosity 4 (init_object "t"))
  /\ disableVerbosity 2 (enableVerbosity 2
        (enableVerbosity 4 (init_object "t")))
      = enableVerbosity 4 (init_object "t").
Proof.
  destruct (enable_disable_restores_unset_flags
              (enableVerbosity 4 (init_object "t")) 2) as [_ H].
  assert (Hm : is_verbosity (mVerbosity (enableVerbosity 4 (init_object "t"))))
    by (vm_compute; split; [discriminate | reflexivity]).
  destruct (H Hm) as [Hiff Hobj].
  split.
  - apply Hiff. reflexivity.
  - apply Hobj. reflexivity.
Defined.

(** ** The checking forms *)

(** C7: each of the ten checking forms is a pure read.  Whatever the state,
    when the named instance exists the form answers a boolean that is a
    function of the target's status alone ([status_predicate]) and the
    state after it (every field of every instance, the registry, maxLength
    and the printer's output) is the state before it. *)
Theorem checking_forms_pure_read (c : CheckForm) (name : string)
    (w : World) (target : Test) :
  instances w !! name = Some target ->
  checkTest c name w = Some (status_predicate c (mStatus target), w).
Proof.
  intros Hname.
  destruct c; simpl;
    unfold checkTestDone, checkTestNotDone, checkTestPass, checkTestNotPass,
      checkTestFail, checkTestNotFail, checkTestSkip, checkTestNotSkip,
      checkTestExpire, checkTestNotExpire, bind, instance, ret;
    rewrite Hname;
    unfold isNotDone, isDone, isNotPassed, isPassed, isNotFailed, isFailed,
      isNotSkipped, isSkipped, isNotExpired, isExpired;
    rewrite ?negb_involutive; reflexivity.
Qed.

Lemma checking_forms_pure_read_witness :
  checkTest CheckTestNotFail "A"
    (with_instances (insert "A" (fail (init_object "A"))) initial_world)
  = Some (false,
          with_instances (insert "A" (fail (init_object "A"))) initial_world).
Proof.
  apply (checking_forms_pure_read CheckTestNotFail "A"
           (with_instances (insert "A" (fail (init_object "A"))) initial_world)
           (fail (init_object "A"))).
  reflexivity.
Defined.

(** ** Registration and the longest name *)

Lemma init_world (this name : string) (w : World) :
  init this name w
  = Some (tt, {| instances := <[this := init_object name]> (instances w);
                 registry := registry w ++ [this];
                 maxLength := Nat.max (maxLength w) (String.length name);
                 printed := printed w |}).
Proof. reflexivity. Qed.

Lemma register_all_maxLength (tests : list (string * string)) :
  forall w : World,
  exists w' : World,
    register_all tests w = Some (tt, w')
    /\ maxLength w' = Nat.max (maxLength w) (longest (map snd tests)).
Proof.
  induction tests as [|[this name] rest IH]; intros w; simpl.
  - exists w. split; [reflexivity | lia].
  - unfold bind at 1. rewrite init_world.
    destruct (IH {| instances := <[this := init_object name]> (instances w);
                    registry := registry w ++ [this];
                    maxLength := Nat.max (maxLength w) (String.length name);
                    printed := printed w |}) as (w' & Hrun & Hmax).
    exists w'. split; [exact Hrun |].
    rewrite Hmax; simpl. lia.
Qed.

Lemma max_of_permutation (l l' : list nat) :
  Permutation l l' -> foldr Nat.max 0%nat l = foldr Nat.max 0%nat l'.
Proof. induction 1; simpl; lia. Qed.

Lemma longest_foldr (names : list string) :
  longest names = foldr Nat.max 0%nat (map String.length names).
Proof. induction names as [|n names IH]; simpl; [reflexivity | rewrite IH; reflexivity]. Qed.

(** C8: registration (either overload of init) sets the tracker to the
    maximum of its current value and the length of the new name; and from
    the initial state, registering three tests whose names have the lengths
    3, 10 and 5, in any order, leaves the tracker at 10. *)
Theorem registration_tracks_longest_name (this name : string) (w : World)
    (o1 o2 o3 n1 n2 n3 : string) :
  (exists w' : World,
     init this name w = Some (tt, w')
     /\ maxLength w' = Nat.max (maxLength w) (String.length name))
  /\ (exists w' : World,
        init_flash this name w = Some (tt, w')
        /\ maxLength w' = Nat.max (maxLength w) (String.length name))
  /\ (Permutation [String.length n1; String.length n2; String.length n3]
        [3%nat; 10%nat; 5%nat] ->
      exists w' : World,
        register_all [(o1, n1); (o2, n2); (o3, n3)] initial_world
          = Some (tt, w')
        /\ maxLength w' = 10%nat).
Proof.
  split; [| split].
  - eexists. rewrite init_world. split; reflexivity.
  - eexists. unfold init_flash; simpl. rewrite init_world. split; reflexivity.
  - intros Hperm.
    destruct (register_all_maxLength [(o1, n1); (o2, n2); (o3, n3)]
                initial_world) as (w' & Hrun & Hmax).
    exists w'. split; [exact Hrun |].
    rewrite Hmax, longest_foldr. simpl map.
    rewrite (max_of_permutation _ _ Hperm). reflexivity.
Qed.

Lemma registration_tracks_longest_name_witness :
  exists w' : World,
    register_all [("t1", "abcdefghij"); ("t2", "abcde"); ("t3", "abc")]
      initial_world = Some (tt, w')
    /\ maxLength w' = 10%nat.
Proof.
  destruct (registration_tracks_longest_name "t1" "abcdefghij" initial_world
              "t1" "t2" "t3" "abcdefghij" "abcde" "abc") as (_ & _ & H).
  apply H. simpl.
  apply perm_trans with (l' := [3%nat; 5%nat; 10%nat]).
  - apply perm_trans with (l' := [5%nat; 10%nat; 3%nat]).
    + apply perm_swap.
    + apply perm_trans with (l' := [5%nat; 3%nat; 10%nat]).
      * apply perm_skip. apply perm_swap.
      * apply perm_swap.
  - apply perm_skip. apply perm_swap.
Defined.

(** ** The asserting forms *)

(** A prefix of a body that runs to its end hands the state on to the rest
    of the body. *)
Lemma exec_body_app (this : string) (pre rest : list Stmt) :
  forall w w1 : World,
    exec_body this pre w = Some (Continue, w1) ->
    exec_body this (pre ++ rest) w = exec_body this rest w1.
Proof.
  induction pre as [|s pre IH]; intros w w1 Hpre; simpl in *.
  - unfold ret in Hpre. injection Hpre as <-. reflexivity.
  - unfold bind in *.
    destruct (exec_stmt this s w) as [[[|] w0]|]; try discriminate.
    apply IH. exact Hpre.
Qed.

(** A prefix that returns ends the invocation: what follows does not run. *)
Lemma exec_body_returned (this : string) (pre rest : list Stmt) :
  forall w w1 : World,
    exec_body this pre w = Some (Returned, w1) ->
    exec_body this (pre ++ rest) w = Some (Returned, w1).
Proof.
  induction pre as [|s pre IH]; intros w w1 Hpre; simpl in *.
  - discriminate Hpre.
  - unfold bind in *.
    destruct (exec_stmt this s w) as [[[|] w0]|]; try discriminate.
    + apply IH. exact Hpre.
    + exact Hpre.
Qed.

Lemma to_uint16_t_idempotent (z : Z) :
  to_uint16_t (to_uint16_t z) = to_uint16_t z.
Proof. unfold to_uint16_t. apply Z.mod_mod. lia. Qed.

Lemma to_uint16_t_small (z : Z) : 0 <= z < 65536 -> to_uint16_t z = z.
Proof. intros Hz. unfold to_uint16_t. apply Z.mod_small. lia. Qed.

Lemma assertTestStatus_false (this file : string) (line : Z) (name : string)
    (method : Method) (message : Message) (w : World) (caller target : Test) :
  instances w !! this = Some caller ->
  instances w !! name = Some target ->
  call_method method target = false ->
  assertTestStatus this file line name method message w
  = Some (Returned,
          after_failed_assertion this caller
            (mkDiagnostic false file (to_uint16_t line) name message) w).
Proof.
  intros Hthis Hname Hfalse.
  unfold assertTestStatus, bind at 1, instance.
  rewrite Hname, Hfalse.
  unfold assertionTestStatus, bind, print, call, bind, instance, ret.
  cbv zeta. rewrite to_uint16_t_idempotent. simpl.
  rewrite Hthis. reflexivity.
Qed.

Lemma assertTestStatus_true (this file : string) (line : Z) (name : string)
    (method : Method) (message : Message) (w : World) (target : Test) :
  instances w !! name = Some target ->
  call_method method target = true ->
  assertTestStatus this file line name method message w = Some (Continue, w).
Proof.
  intros Hname Htrue.
  unfold assertTestStatus, bind, instance.
  rewrite Hname, Htrue. reflexivity.
Qed.

(** C4, as stated, fails: the diagnostic does not always name the caller's
    source location.  The macro passes [__LINE__] to a [uint16_t]
    parameter, so a failing assertTestPass on line 70000 of B.ino prints
    one diagnostic, whose line is 4464. *)
Lemma diagnostic_line_wraps_at_65536 :
  option_map (fun r => (fst r, map diag_line (printed (snd r))))
    (exec_body "B" [assertTestPass "B.ino" 70000 "A"]
       (with_instances
          (insert "B" (init_object "B") ∘ insert "A" (fail (init_object "A")))
          initial_world))
  = Some (Returned, [4464])
  /\ 4464 <> 70000.
Proof. split; [reflexivity | discriminate]. Qed.

(** C4 (amended; assertionTestStatus modelled from the spec): when the body
    of test [this] reaches the asserting form of a meta-assertion on test
    [name] and the tested predicate is false, then, whatever statements
    [post] follow it in the body, the invocation returns in the state
    reached at the assertion changed in two places only: the caller's
    object has gone through setStatus(Failed), so its status is Failed and
    its life cycle Asserted, and one diagnostic has been printed, carrying
    the file of the call, the line of the call as a [uint16_t] (the line
    modulo 65536, which is the line itself when it is below 65536), the
    name of the target and the message of the expected condition. *)
Theorem failed_meta_assertion_fails_and_returns
    (this file : string) (line : Z) (name : string) (method : Method)
    (message : Message) (pre : list Stmt) (w w1 : World)
    (caller target : Test) :
  exec_body this pre w = Some (Continue, w1) ->
  instances w1 !! this = Some caller ->
  instances w1 !! name = Some target ->
  call_method method target = false ->
  exists (w' : World) (caller' : Test) (d : Diagnostic),
    (forall post : list Stmt,
       exec_body this
         (pre ++ SAssertTestStatus file line name method message :: post) w
       = Some (Returned, w'))
    /\ w' = after_failed_assertion this caller d w1
    /\ instances w' !! this = Some caller'
    /\ caller' = setStatus Failed caller
    /\ mStatus caller' = Failed
    /\ mLifeCycle caller' = Asserted
    /\ printed w' = printed w1 ++ [d]
    /\ d = mkDiagnostic false file (line mod 65536) name message
    /\ (0 <= line < 65536 -> diag_line d = line)
    /\ (forall other : string,
          other <> this -> instances w' !! other = instances w1 !! other)
    /\ registry w' = registry w1
    /\ maxLength w' = maxLength w1.
Proof.
  intros Hpre Hthis Hname Hfalse.
  exists (after_failed_assertion this caller
            (mkDiagnostic false file (to_uint16_t line) name message) w1),
         (setStatus Failed caller),
         (mkDiagnostic false file (to_uint16_t line) name message).
  split; [| repeat split].
  - intros post.
    rewrite (exec_body_app this pre _ w w1 Hpre). simpl.
    unfold bind at 1.
    rewrite (assertTestStatus_false this file line name method message
               w1 caller target Hthis Hname Hfalse).
    reflexivity.
  - simpl. apply lookup_insert_eq.
  - intros Hline. simpl. apply to_uint16_t_small. exact Hline.
  - intros other Hother. simpl. apply lookup_insert_ne. congruence.
Qed.

Lemma failed_meta_assertion_fails_and_returns_witness :
  exists (w' : World) (caller' : Test),
    (forall post : list Stmt,
       exec_body "B"
         ([SCall (OpEnableVerbosity 2)]
            ++ SAssertTestStatus "B.ino" 12 "A" M_isPassed kMessageIsPassed
            :: post)
         (with_instances
            (insert "B" (init_object "B") ∘ insert "A" (fail (init_object "A")))
            initial_world)
       = Some (Returned, w'))
    /\ instances w' !! "B" = Some caller'
    /\ mStatus caller' = Failed
    /\ mLifeCycle caller' = Asserted
    /\ printed w'
       = [mkDiagnostic false "B.ino" 12 "A" kMessageIsPassed].
Proof.
  destruct (failed_meta_assertion_fails_and_returns
              "B" "B.ino" 12 "A" M_isPassed kMessageIsPassed
              [SCall (OpEnableVerbosity 2)]
              (with_instances
                 (insert "B" (init_object "B")
                    ∘ insert "A" (fail (init_object "A")))
                 initial_world)
              (with_instances
                 (insert "B" (enableVerbosity 2 (init_object "B")))
                 (with_instances
                    (insert "B" (init_object "B")
                       ∘ insert "A" (fail (init_object "A")))
                    initial_world))
              (enableVerbosity 2 (init_object "B"))
              (fail (init_object "A")))
    as (w' & caller' & d & Hrun & Hw' & Hthis & _ & Hs & Hl & Hp & Hd & _).
  - reflexivity.
  - reflexivity.
  - reflexivity.
  - reflexivity.
  - exists w', caller'. repeat split; try assumption.
    rewrite Hp, Hd. reflexivity.
Defined.

(* ===================================================================== *)
(** * Part 6: further properties of the embedded code                     *)
(* ===================================================================== *)

(** ** setStatus, setLifeCycle and the predicates *)

(** X1: a decided status is not latched.  A call of setStatus with a status
    other than Unknown wipes out the effect of any earlier setStatus call
    (so pass() after fail() leaves a plainly passed test), and calling
    setStatus twice with the same status is the same as calling it once. *)
Theorem setStatus_last_call_wins (t : Test) (s1 s2 : Status) :
  (s2 <> Unknown -> setStatus s2 (setStatus s1 t) = setStatus s2 t)
  /\ setStatus s1 (setStatus s1 t) = setStatus s1 t.
Proof.
  split.
  - intros Hs2. destruct s2; [congruence | | | |]; destruct s1; reflexivity.
  - destruct s1; reflexivity.
Qed.

Lemma setStatus_last_call_wins_witness :
  pass (fail (init_object "t")) = pass (init_object "t").
Proof.
  apply (setStatus_last_call_wins (init_object "t") Failed Passed).
  discriminate.
Defined.

(** X2: after pass(), fail(), skip() or expire() the test is done and
    exactly the matching outcome predicate answers true, whatever the state
    of the test was before the call. *)
Theorem self_report_read_back (t : Test) :
  (isDone (pass t) = true /\ outcomes (pass t) = [true; false; false; false])
  /\ (isDone (fail t) = true
      /\ outcomes (fail t) = [false; true; false; false])
  /\ (isDone (skip t) = true
      /\ outcomes (skip t) = [false; false; true; false])
  /\ (isDone (expire t) = true
      /\ outcomes (expire t) = [false; false; false; true]).
Proof. repeat split. Qed.

(** X3: a write of the life cycle never changes the outcome: after
    setLifeCycle(l) each of the ten predicates, the status, the name and the
    verbosity answer as before, the life cycle reads back as [l], and a
    second write replaces the first. *)
Theorem setLifeCycle_keeps_outcome (t : Test) (l l' : LifeCycle) (m : Method) :
  call_method m (setLifeCycle l t) = call_method m t
  /\ getStatus (setLifeCycle l t) = getStatus t
  /\ getName (setLifeCycle l t) = getName t
  /\ getVerbosity (setLifeCycle l t) = getVerbosity t
  /\ getLifeCycle (setLifeCycle l t) = l
  /\ setLifeCycle l' (setLifeCycle l t) = setLifeCycle l' t.
Proof. destruct m; repeat split. Qed.

(** ** Sequences of operations *)

Lemma apply_op_status_lifeCycle (o : Op) (t t' : Test) :
  mStatus t = mStatus t' ->
  mLifeCycle t = mLifeCycle t' ->
  mStatus (apply_op o t) = mStatus (apply_op o t')
  /\ mLifeCycle (apply_op o t) = mLifeCycle (apply_op o t').
Proof.
  destruct t as [n l s v], t' as [n' l' s' v']; simpl.
  intros -> ->.
  destruct o as [s0| |ok| | | | | | | |]; simpl; try (split; reflexivity).
  - destruct s0; split; reflexivity.
  - destruct ok; split; reflexivity.
Qed.

Lemma apply_op_verbosity_op (o : Op) (t : Test) :
  verbosity_op o = true ->
  mStatus (apply_op o t) = mStatus t
  /\ mLifeCycle (apply_op o t) = mLifeCycle t
  /\ mName (apply_op o t) = mName t.
Proof.
  destruct o; simpl; try discriminate; intros _; repeat split.
Qed.

Lemma apply_op_other_op (o : Op) (t : Test) :
  verbosity_op o = false ->
  mVerbosity (apply_op o t) = mVerbosity t.
Proof.
  destruct o as [s0| |ok| | | | | | | |]; simpl; try discriminate; intros _;
    try reflexivity.
  - apply setStatus_mVerbosity.
  - apply setStatus_mVerbosity.
Qed.

Lemma apply_op_mVerbosity (o : Op) (t t' : Test) :
  mVerbosity t = mVerbosity t' ->
  mVerbosity (apply_op o t) = mVerbosity (apply_op o t').
Proof.
  intros Hv.
  destruct (verbosity_op o) eqn:Ho.
  - destruct o; simpl in *; try discriminate; rewrite Hv; reflexivity.
  - rewrite !apply_op_other_op by exact Ho. exact Hv.
Qed.

Lemma apply_op_mName (o : Op) (t : Test) : mName (apply_op o t) = mName t.
Proof.
  destruct o as [s0| |ok| | | | | | | |]; simpl; try reflexivity;
    apply setStatus_mName.
Qed.

Lemma apply_ops_mName (os : list Op) :
  forall t : Test, mName (apply_ops os t) = mName t.
Proof.
  induction os as [|o os IH]; intros t; simpl; [reflexivity |].
  rewrite IH. apply apply_op_mName.
Qed.

Lemma apply_ops_without_verbosity (os : list Op) :
  forall t t' : Test,
    mStatus t = mStatus t' ->
    mLifeCycle t = mLifeCycle t' ->
    mStatus (apply_ops os t)
      = mStatus (apply_ops (List.filter (fun o => negb (verbosity_op o)) os) t')
    /\ mLifeCycle (apply_ops os t)
       = mLifeCycle
           (apply_ops (List.filter (fun o => negb (verbosity_op o)) os) t').
Proof.
  induction os as [|o os IH]; intros t t' Hs Hl; simpl.
  - split; assumption.
  - destruct (verbosity_op o) eqn:Ho; simpl.
    + destruct (apply_op_verbosity_op o t Ho) as (Hs' & Hl' & _).
      apply IH; congruence.
    + destruct (apply_op_status_lifeCycle o t t' Hs Hl) as [Hs' Hl'].
      apply IH; assumption.
Qed.

Lemma apply_ops_only_verbosity (os : list Op) :
  forall t t' : Test,
    mVerbosity t = mVerbosity t' ->
    mVerbosity (apply_ops os t)
      = mVerbosity (apply_ops (List.filter verbosity_op os) t').
Proof.
  induction os as [|o os IH]; intros t t' Hv; simpl.
  - exact Hv.
  - destruct (verbosity_op o) eqn:Ho; simpl.
    + apply IH. apply apply_op_mVerbosity. exact Hv.
    + apply IH. rewrite apply_op_other_op by exact Ho. exact Hv.
Qed.

(** X4: the verbosity mask and the pair of status and life cycle do not
    interact, and the name is never written.  After any sequence of
    operations, the status and the life cycle are what the sequence without
    its enableVerbosity and disableVerbosity calls gives, the mask is what
    those calls alone give, and the name is unchanged. *)
Theorem verbosity_orthogonal_to_status (os : list Op) (t : Test) :
  mStatus (apply_ops os t)
    = mStatus (apply_ops (List.filter (fun o => negb (verbosity_op o)) os) t)
  /\ mLifeCycle (apply_ops os t)
     = mLifeCycle
         (apply_ops (List.filter (fun o => negb (verbosity_op o)) os) t)
  /\ mVerbosity (apply_ops os t)
     = mVerbosity (apply_ops (List.filter verbosity_op os) t)
  /\ mName (apply_ops os t) = mName t.
Proof.
  destruct (apply_ops_without_verbosity os t t eq_refl eq_refl) as [Hs Hl].
  repeat split.
  - exact Hs.
  - exact Hl.
  - apply apply_ops_only_verbosity. reflexivity.
  - apply apply_ops_mName.
Qed.

Lemma isDone_after_op (o : Op) (t : Test) :
  undecides o = false ->
  isDone t = true ->
  isDone (apply_op o t) = true.
Proof.
  intros Ho Ht.
  destruct o as [s0| |ok| | | | | | | |]; simpl in *; try exact Ht;
    try reflexivity.
  - destruct s0; [discriminate Ho | | | |]; reflexivity.
  - destruct ok; reflexivity.
Qed.

(** X5: being done is kept.  Once a test is done it stays done under every
    sequence of operations that holds no call setStatus(Unknown): life-cycle
    writes, verbosity changes and further self-reports never bring the
    status back to Unknown. *)
Theorem isDone_stays (os : list Op) (t : Test) :
  forallb (fun o => negb (undecides o)) os = true ->
  isDone t = true ->
  isDone (apply_ops os t) = true.
Proof.
  revert t.
  induction os as [|o os IH]; intros t Hos Ht; simpl in *.
  - exact Ht.
  - apply andb_prop in Hos as [Ho Hos].
    apply IH; [exact Hos |].
    apply isDone_after_op; [| exact Ht].
    apply negb_true_iff. exact Ho.
Qed.

Lemma isDone_stays_witness :
  isDone (apply_ops [OpSetLifeCycle Finished; OpDisableVerbosity 1; OpPass]
            (skip (init_object "t"))) = true.
Proof.
  apply (isDone_stays [OpSetLifeCycle Finished; OpDisableVerbosity 1; OpPass]
           (skip (init_object "t"))); reflexivity.
Defined.

Lemma decided_means_Asserted_step (o : Op) (t : Test) :
  writes_lifeCycle o = false ->
  decided_means_Asserted t ->
  decided_means_Asserted (apply_op o t).
Proof.
  intros Ho [Hd Hl]. unfold decided_means_Asserted.
  destruct o as [s0| |ok| | | | | | | |]; simpl in *; try discriminate;
    try (split; [reflexivity | right; reflexivity]);
    try (split; assumption).
  - destruct s0; simpl;
      try (split; [reflexivity | right; reflexivity]).
    split; [congruence | exact Hl].
  - destruct ok; split; try reflexivity; right; reflexivity.
Qed.

(** X6: without the runner a test only goes from New to Asserted.  After
    any sequence of operations on a constructed test that holds no direct
    write of the life cycle (setStatus with any status, also Unknown, the
    self-reports and the verbosity changes), a decided status implies the
    life cycle Asserted, and the life cycle is New or Asserted: a test never
    puts itself into Excluded, Setup or Finished. *)
Theorem lifeCycle_without_runner (name : string) (os : list Op) :
  forallb (fun o => negb (writes_lifeCycle o)) os = true ->
  (mStatus (apply_ops os (init_object name)) <> Unknown ->
     mLifeCycle (apply_ops os (init_object name)) = Asserted)
  /\ (mLifeCycle (apply_ops os (init_object name)) = New
      \/ mLifeCycle (apply_ops os (init_object name)) = Asserted).
Proof.
  intros Hos.
  assert (Hinit : decided_means_Asserted (init_object name)).
  { split; [intros H; exfalso; apply H; reflexivity | left; reflexivity]. }
  revert Hos Hinit. generalize (init_object name) as t.
  induction os as [|o os IH]; intros t Hos Ht; simpl in *.
  - exact Ht.
  - apply andb_prop in Hos as [Ho Hos].
    apply IH; [exact Hos |].
    apply decided_means_Asserted_step; [| exact Ht].
    apply negb_true_iff. exact Ho.
Qed.

Lemma lifeCycle_without_runner_witness :
  (mStatus (apply_ops [OpFail; OpSetStatus Unknown; OpEnableVerbosity 1]
              (init_object "t")) <> Unknown ->
     mLifeCycle (apply_ops [OpFail; OpSetStatus Unknown; OpEnableVerbosity 1]
                   (init_object "t")) = Asserted)
  /\ (mLifeCycle (apply_ops [OpFail; OpSetStatus Unknown; OpEnableVerbosity 1]
                    (init_object "t")) = New
      \/ mLifeCycle (apply_ops [OpFail; OpSetStatus Unknown; OpEnableVerbosity 1]
                       (init_object "t")) = Asserted).
Proof.
  apply (lifeCycle_without_runner "t"
           [OpFail; OpSetStatus Unknown; OpEnableVerbosity 1]).
  reflexivity.
Defined.

(** ** The verbosity mask *)

Lemma land_lor_same (m v : Z) : Z.land (Z.lor m v) v = v.
Proof.
  apply Z.bits_inj'; intros i Hi.
  rewrite Z.land_spec, Z.lor_spec.
  destruct (Z.testbit m i), (Z.testbit v i); reflexivity.
Qed.

Lemma land_verbosity_not_same (m v : Verbosity) :
  Z.land (Z.land m (verbosity_not v)) v = 0.
Proof.
  apply Z.bits_inj'; intros i Hi.
  rewrite !Z.land_spec, verbosity_not_bits, Z.bits_0 by exact Hi.
  destruct (Z.testbit m i), (Z.testbit v i), (i <? verbosity_bits);
    reflexivity.
Qed.

(** X7: isVerbosity reads back what enableVerbosity and disableVerbosity
    wrote.  After enableVerbosity(v), isVerbosity(v) answers true unless v
    is kNone (no flag at all); after disableVerbosity(v), isVerbosity(v)
    answers false; whatever the mask was before. *)
Theorem isVerbosity_read_back (t : Test) (v : Verbosity) :
  isVerbosity v (enableVerbosity v t) = negb (v =? kNone)
  /\ isVerbosity v (disableVerbosity v t) = false.
Proof.
  unfold isVerbosity, enableVerbosity, disableVerbosity; simpl.
  rewrite land_lor_same, land_verbosity_not_same.
  split; reflexivity.
Qed.

(** X8: isVerbosity asks for any of the given flags.  For a union of flags
    it answers true exactly when it does for one of the two parts; for
    kNone it answers false; and on a test just constructed it answers false
    for every flag. *)
Theorem isVerbosity_any_flag (t : Test) (a b : Verbosity) (name : string) :
  isVerbosity (Z.lor a b) t = isVerbosity a t || isVerbosity b t
  /\ isVerbosity kNone t = false
  /\ isVerbosity a (init_object name) = false.
Proof.
  unfold isVerbosity, kNone; simpl. split; [| split].
  - rewrite Z.land_lor_distr_r.
    destruct (Z.eqb_spec (Z.land (mVerbosity t) a) 0) as [Ha|Ha];
      destruct (Z.eqb_spec (Z.land (mVerbosity t) b) 0) as [Hb|Hb];
      destruct (Z.eqb_spec (Z.lor (Z.land (mVerbosity t) a)
                                  (Z.land (mVerbosity t) b)) 0) as [Hab|Hab];
      simpl; try reflexivity; exfalso.
    + apply Hab. apply Z.lor_eq_0_iff. split; assumption.
    + apply Z.lor_eq_0_iff in Hab. tauto.
    + apply Z.lor_eq_0_iff in Hab. tauto.
    + apply Z.lor_eq_0_iff in Hab. tauto.
  - rewrite Z.land_0_r. reflexivity.
  - reflexivity.
Qed.

Lemma land_lor_disjoint (m u v : Z) :
  Z.land u v = 0 -> Z.land (Z.lor m v) u = Z.land m u.
Proof.
  intros Huv.
  apply Z.bits_inj'; intros i Hi.
  assert (Hb : Z.testbit (Z.land u v) i = false)
    by (rewrite Huv; apply Z.bits_0).
  rewrite Z.land_spec in Hb.
  rewrite !Z.land_spec, Z.lor_spec.
  destruct (Z.testbit m i), (Z.testbit u i), (Z.testbit v i);
    simpl in *; congruence.
Qed.

Lemma land_verbosity_not_disjoint (m u v : Verbosity) :
  is_verbosity m ->
  Z.land u v = 0 ->
  Z.land (Z.land m (verbosity_not v)) u = Z.land m u.
Proof.
  intros Hm Huv.
  apply Z.bits_inj'; intros i Hi.
  assert (Hb : Z.testbit (Z.land u v) i = false)
    by (rewrite Huv; apply Z.bits_0).
  rewrite Z.land_spec in Hb.
  rewrite !Z.land_spec, verbosity_not_bits by exact Hi.
  rewrite (is_verbosity_bits m i Hm Hi).
  destruct (Z.testbit m i), (Z.testbit u i), (Z.testbit v i),
    (i <? verbosity_bits); simpl in *; congruence.
Qed.

(** X9: enabling or disabling flags leaves the other flags alone.  For
    flags u that share no bit with v, isVerbosity(u) answers the same after
    enableVerbosity(v) and after disableVerbosity(v) as before (the mask
    being a value of the type). *)
Theorem isVerbosity_other_flags (t : Test) (u v : Verbosity) :
  is_verbosity (mVerbosity t) ->
  Z.land u v = 0 ->
  isVerbosity u (enableVerbosity v t) = isVerbosity u t
  /\ isVerbosity u (disableVerbosity v t) = isVerbosity u t.
Proof.
  intros Hm Huv.
  unfold isVerbosity, enableVerbosity, disableVerbosity; simpl.
  rewrite (land_lor_disjoint _ _ _ Huv).
  rewrite (land_verbosity_not_disjoint _ _ _ Hm Huv).
  split; reflexivity.
Qed.

Lemma isVerbosity_other_flags_witness :
  isVerbosity 4 (enableVerbosity 2 (enableVerbosity 4 (init_object "t")))
    = isVerbosity 4 (enableVerbosity 4 (init_object "t"))
  /\ isVerbosity 4 (disableVerbosity 2 (enableVerbosity 4 (init_object "t")))
     = isVerbosity 4 (enableVerbosity 4 (init_object "t")).
Proof.
  apply (isVerbosity_other_flags (enableVerbosity 4 (init_object "t")) 4 2).
  - vm_compute. split; [discriminate | reflexivity].
  - reflexivity.
Defined.

Lemma verbosity_not_lor (a b : Verbosity) (m : Z) :
  Z.land (Z.land m (verbosity_not a)) (verbosity_not b)
  = Z.land m (verbosity_not (Z.lor a b)).
Proof.
  apply Z.bits_inj'; intros i Hi.
  rewrite !Z.land_spec, !verbosity_not_bits, Z.lor_spec by exact Hi.
  destruct (Z.testbit m i), (Z.testbit a i), (Z.testbit b i),
    (i <? verbosity_bits); reflexivity.
Qed.

(** X10: calls of the same kind merge.  Two enableVerbosity calls are one
    call with the union of the flags, two disableVerbosity calls likewise;
    so the order of two such calls does not matter and repeating a call
    changes nothing. *)
Theorem verbosity_calls_merge (t : Test) (a b : Verbosity) :
  enableVerbosity b (enableVerbosity a t) = enableVerbosity (Z.lor a b) t
  /\ disableVerbosity b (disableVerbosity a t)
     = disableVerbosity (Z.lor a b) t
  /\ enableVerbosity b (enableVerbosity a t)
     = enableVerbosity a (enableVerbosity b t)
  /\ disableVerbosity b (disableVerbosity a t)
     = disableVerbosity a (disableVerbosity b t)
  /\ enableVerbosity a (enableVerbosity a t) = enableVerbosity a t
  /\ disableVerbosity a (disableVerbosity a t) = disableVerbosity a t.
Proof.
  assert (He : forall x y : Verbosity,
             enableVerbosity y (enableVerbosity x t)
             = enableVerbosity (Z.lor x y) t).
  { intros x y. unfold enableVerbosity, assign_mVerbosity; simpl.
    rewrite Z.lor_assoc. reflexivity. }
  assert (Hd : forall x y : Verbosity,
             disableVerbosity y (disableVerbosity x t)
             = disableVerbosity (Z.lor x y) t).
  { intros x y. unfold disableVerbosity, assign_mVerbosity; simpl.
    rewrite verbosity_not_lor. reflexivity. }
  repeat split.
  - apply He.
  - apply Hd.
  - rewrite !He, (Z.lor_comm a b). reflexivity.
  - rewrite !Hd, (Z.lor_comm a b). reflexivity.
  - rewrite He, Z.lor_diag. reflexivity.
  - rewrite Hd, Z.lor_diag. reflexivity.
Qed.

Lemma lor_verbosity_not_same (m v : Verbosity) :
  is_verbosity m ->
  Z.lor (Z.land m (verbosity_not v)) v = Z.lor m v.
Proof.
  intros Hm.
  apply Z.bits_inj'; intros i Hi.
  rewrite !Z.lor_spec, Z.land_spec, verbosity_not_bits by exact Hi.
  rewrite (is_verbosity_bits m i Hm Hi).
  destruct (Z.testbit m i), (Z.testbit v i), (i <? verbosity_bits);
    reflexivity.
Qed.

(** X11: disabling and then enabling the same flags is enabling alone: for
    a mask of the type, disableVerbosity(v) followed by enableVerbosity(v)
    leaves the object as enableVerbosity(v) alone does, with the flags of v
    set and the others as they were. *)
Theorem disable_then_enable_is_enable (t : Test) (v : Verbosity) :
  is_verbosity (mVerbosity t) ->
  enableVerbosity v (disableVerbosity v t) = enableVerbosity v t
  /\ mVerbosity (enableVerbosity v (disableVerbosity v t))
     = Z.lor (mVerbosity t) v.
Proof.
  intros Hm.
  unfold enableVerbosity, disableVerbosity, assign_mVerbosity; simpl.
  rewrite (lor_verbosity_not_same _ _ Hm).
  split; reflexivity.
Qed.

Lemma disable_then_enable_is_enable_witness :
  enableVerbosity 3 (disableVerbosity 3 (enableVerbosity 5 (init_object "t")))
  = enableVerbosity 3 (enableVerbosity 5 (init_object "t"))
  /\ mVerbosity
       (enableVerbosity 3
          (disableVerbosity 3 (enableVerbosity 5 (init_object "t"))))
     = Z.lor (mVerbosity (enableVerbosity 5 (init_object "t"))) 3.
Proof.
  apply (disable_then_enable_is_enable (enableVerbosity 5 (init_object "t")) 3).
  vm_compute. split; [discriminate | reflexivity].
Defined.

(** ** The forms of MetaAssertion.h *)

Lemma checkTest_run (c : CheckForm) (name : string) (w : World) :
  checkTest c name w
  = match instances w !! name with
    | Some t => Some (status_predicate c (mStatus t), w)
    | None => None
    end.
Proof.
  destruct c; simpl;
    unfold checkTestDone, checkTestNotDone, checkTestPass, checkTestNotPass,
      checkTestFail, checkTestNotFail, checkTestSkip, checkTestNotSkip,
      checkTestExpire, checkTestNotExpire, bind, instance, ret;
    destruct (instances w !! name) as [t|]; try reflexivity;
    unfold isNotDone, isDone, isNotPassed, isPassed, isNotFailed, isFailed,
      isNotSkipped, isSkipped, isNotExpired, isExpired;
    rewrite ?negb_involutive; reflexivity.
Qed.

(** X12: each checkTestNot... form answers the negation of its positive
    form, in every state and for every name: same state afterwards, the
    boolean negated, and no answer exactly when the positive form has
    none. *)
Theorem negative_checking_forms (name : string) (w : World) :
  checkTestNotDone name w = negated (checkTestDone name w)
  /\ checkTestNotPass name w = negated (checkTestPass name w)
  /\ checkTestNotFail name w = negated (checkTestFail name w)
  /\ checkTestNotSkip name w = negated (checkTestSkip name w)
  /\ checkTestNotExpire name w = negated (checkTestExpire name w).
Proof.
  unfold checkTestDone, checkTestNotDone, checkTestPass, checkTestNotPass,
    checkTestFail, checkTestNotFail, checkTestSkip, checkTestNotSkip,
    checkTestExpire, checkTestNotExpire, bind, instance, ret.
  destruct (instances w !! name) as [t|]; repeat split.
Qed.



(** X14: a check reads what the last call on the target wrote, and nothing
    that a call on another instance wrote.  After any setStatus(s) on the
    instance [name], every checking form on [name] answers as for the
    status s; after any method call on another instance it answers as
    before that call. *)
Theorem check_after_call (c : CheckForm) (name other : string) (s : Status)
    (f : Test -> Test) (w : World) (t t' : Test) :
  instances w !! name = Some t ->
  instances w !! other = Some t' ->
  other <> name ->
  (call name (setStatus s) ;;; checkTest c name) w
    = Some (status_predicate c s,
            with_instances (insert name (setStatus s t)) w)
  /\ (call other f ;;; checkTest c name) w
     = Some (status_predicate c (mStatus t),
             with_instances (insert other (f t')) w).
Proof.
  intros Hname Hother Hne.
  split.
  - unfold bind at 1, call, bind, instance. rewrite Hname.
    rewrite checkTest_run. simpl.
    rewrite lookup_insert_eq, setStatus_mStatus. reflexivity.
  - unfold bind at 1, call, bind, instance. rewrite Hother.
    rewrite checkTest_run. simpl.
    rewrite lookup_insert_ne by exact Hne. rewrite Hname. reflexivity.
Qed.

Lemma check_after_call_witness :
  (call "A" (setStatus Expired) ;;; checkTest CheckTestExpire "A")
    (with_instances
       (insert "B" (init_object "B") ∘ insert "A" (init_object "A"))
       initial_world)
  = Some (true,
          with_instances (insert "A" (setStatus Expired (init_object "A")))
            (with_instances
               (insert "B" (init_object "B") ∘ insert "A" (init_object "A"))
               initial_world))
  /\ (call "B" fail ;;; checkTest CheckTestDone "A")
       (with_instances
          (insert "B" (init_object "B") ∘ insert "A" (init_object "A"))
          initial_world)
     = Some (false,
             with_instances (insert "B" (fail (init_object "B")))
               (with_instances
                  (insert "B" (init_object "B") ∘ insert "A" (init_object "A"))
                  initial_world)).
Proof.
  destruct (check_after_call CheckTestExpire "A" "B" Expired fail
              (with_instances
                 (insert "B" (init_object "B") ∘ insert "A" (init_object "A"))
                 initial_world)
              (init_object "A") (init_object "B")) as [H1 _];
    [reflexivity | reflexivity | discriminate |].
  destruct (check_after_call CheckTestDone "A" "B" Expired fail
              (with_instances
                 (insert "B" (init_object "B") ∘ insert "A" (init_object "A"))
                 initial_world)
              (init_object "A") (init_object "B")) as [_ H2];
    [reflexivity | reflexivity | discriminate |].
  split; [exact H1 | exact H2].
Defined.

(** ** init and the tracker *)

(** X15: init starts the object over.  Whatever the instance held before
    (also a decided status, another life cycle or a verbosity mask), after
    init its name is the given one, its life cycle New, its status Unknown
    and its verbosity kNone, so it is not done and every checking form on
    it answers as for the status Unknown. *)
Theorem init_starts_over (this name : string) (w : World) (c : CheckForm) :
  exists (w' : World) (t' : Test),
    init this name w = Some (tt, w')
    /\ instances w' !! this = Some t'
    /\ getName t' = FCString_cstring name
    /\ getLifeCycle t' = New
    /\ getStatus t' = Unknown
    /\ getVerbosity t' = kNone
    /\ isDone t' = false
    /\ checkTest c this w' = Some (status_predicate c Unknown, w').
Proof.
  eexists _, (init_object name). rewrite init_world.
  split; [reflexivity |].
  assert (Hthis : instances
            {| instances := <[this := init_object name]> (instances w);
               registry := registry w ++ [this];
               maxLength := Nat.max (maxLength w) (String.length name);
               printed := printed w |} !! this = Some (init_object name))
    by (simpl; apply lookup_insert_eq).
  split; [exact Hthis |].
  repeat (split; [reflexivity |]).
  rewrite checkTest_run, Hthis. reflexivity.
Qed.

Lemma longest_bounds (names : list string) (n : nat) :
  (longest names <= n)%nat ->
  Forall (fun name => (String.length name <= n)%nat) names.
Proof.
  induction names as [|name names IH]; intros Hn; simpl in *.
  - constructor.
  - constructor; [lia | apply IH; lia].
Qed.

(** X16: the tracker covers every registered name.  After registering any
    list of tests from any state, the tracker is the maximum of its earlier
    value and the longest of the new names: it has not gone down and no
    registered name is longer than it. *)
Theorem tracker_covers_registered_names (tests : list (string * string))
    (w : World) :
  exists w' : World,
    register_all tests w = Some (tt, w')
    /\ maxLength w' = Nat.max (maxLength w) (longest (map snd tests))
    /\ (maxLength w <= maxLength w')%nat
    /\ Forall (fun name => (String.length name <= maxLength w')%nat)
         (map snd tests).
Proof.
  destruct (register_all_maxLength tests w) as (w' & Hrun & Hmax).
  exists w'. split; [exact Hrun |]. split; [exact Hmax |].
  split; [lia |].
  apply longest_bounds. lia.
Qed.

(** X17: displayMinPosition is a plain assignment of the tracker.  Called
    before a registration it acts as a floor (the tracker ends at the
    maximum of pos and the longest name); called after it, the tracker is
    pos even when a registered name is longer. *)
Theorem displayMinPosition_order (pos : nat) (tests : list (string * string))
    (w : World) :
  (exists w' : World,
     (displayMinPosition pos ;;; register_all tests) w = Some (tt, w')
     /\ maxLength w' = Nat.max pos (longest (map snd tests)))
  /\ (exists w' : World,
        (register_all tests ;;; displayMinPosition pos) w = Some (tt, w')
        /\ maxLength w' = pos).
Proof.
  split.
  - unfold bind, displayMinPosition, set_maxLength.
    destruct (register_all_maxLength tests
                {| instances := instances w;
                   registry := registry w;
                   maxLength := pos;
                   printed := printed w |}) as (w' & Hrun & Hmax).
    exists w'. split; [exact Hrun | exact Hmax].
  - unfold bind.
    destruct (register_all_maxLength tests w) as (w' & Hrun & _).
    rewrite Hrun. eexists. split; reflexivity.
Qed.
